(** * Blu-ray listing assistant: the listing form and the export page

    A shallow embedding of the two Svelte components that accumulate listing
    records and export them:

    - [MovieForm] ([$lib/MovieForm.svelte]): the per-disc form with
      [validateForm], [transformToBluerayItem] and [handleSubmit];
    - [Page] ([routes/+page.svelte]): the ordered store [submittedItems] with
      [handleItemSubmit] and [downloadCSV].

    The components are written in JavaScript, so the embedding starts with
    the fragment of the ECMAScript runtime they call ([JS]): strings as
    sequences of UTF-16 code units, numbers as IEEE 754 binary64 values,
    [ToBoolean], [String.prototype.trim], [parseFloat], [parseInt],
    [Number::toString], [Array.prototype.join] and [String.prototype.split]. *)

From Stdlib Require Import ZArith NArith List String Ascii Bool Lia.
From Stdlib Require Import DecimalString DecimalN.
From Stdlib Require Import Floats.PrimFloat Floats.SpecFloat Floats.FloatOps.
From Stdlib Require Import Floats.FloatAxioms.
Import ListNotations.

Set Implicit Arguments.
Set Warnings "-inexact-float".

(* ================================================================== *)
(** * The ECMAScript runtime fragment *)
(* ================================================================== *)

Module JS.

(** A string is a finite sequence of UTF-16 code units. *)
Definition jsstring := list N.

(** Source literals are ASCII; [str] embeds a literal. *)
Definition str (s : string) : jsstring :=
  map N_of_ascii (list_ascii_of_string s).

(** The Number type is IEEE 754 binary64. *)
Definition number := float.

(** The values a form field can hold: the initial string, the number (or
    [null] for an empty box) that a numeric [bind:value] writes, and
    [undefined] for a property missing from a JSON response. *)
Inductive value : Type :=
| VUndefined
| VNull
| VString (s : jsstring)
| VNumber (x : number).

(** ** White space and trimming *)

(** [WhiteSpace] and [LineTerminator] code points (ECMA-262, 12.2 and 12.3):
    TAB, LF, VT, FF, CR, SP, NBSP, U+1680, U+2000..U+200A, U+2028, U+2029,
    U+202F, U+205F, U+3000 and U+FEFF. *)
Definition isWhiteSpace (c : N) : bool :=
  existsb (N.eqb c)
    [9; 10; 11; 12; 13; 32; 160; 5760; 8232; 8233; 8239; 8287; 12288; 65279]%N
  || ((8192 <=? c) && (c <=? 8202))%N.

Fixpoint trimStart (s : jsstring) : jsstring :=
  match s with
  | [] => []
  | c :: r => if isWhiteSpace c then trimStart r else s
  end.

Definition trimEnd (s : jsstring) : jsstring := rev (trimStart (rev s)).

Definition trim (s : jsstring) : jsstring := trimEnd (trimStart s).

(** ** Truthiness *)

Definition isNaN (x : number) : bool := negb (x =? x)%float.

(** [ToBoolean]: [undefined], [null], the empty string, [+0], [-0] and [NaN]
    are falsy; everything else is truthy. *)
Definition ToBoolean (v : value) : bool :=
  match v with
  | VUndefined | VNull => false
  | VString s => match s with [] => false | _ :: _ => true end
  | VNumber x => negb ((x =? 0)%float || isNaN x)
  end.

(** ** Decimal numerals *)

Definition decimal (n : N) : jsstring :=
  str (NilEmpty.string_of_uint (N.to_uint n)).

Definition digitValue (radix : N) (c : N) : option N :=
  let d :=
    if ((48 <=? c) && (c <=? 57))%N then Some (c - 48)%N
    else if ((97 <=? c) && (c <=? 122))%N then Some (c - 87)%N
    else if ((65 <=? c) && (c <=? 90))%N then Some (c - 55)%N
    else None in
  match d with
  | Some v => if (v <? radix)%N then Some v else None
  | None => None
  end.

(** Longest prefix of digits in [radix]: its value (continuing [acc]), the
    number of digits read, and the rest of the string. *)
Fixpoint scanDigits (radix : N) (s : jsstring) (acc : N) (count : N)
  : N * N * jsstring :=
  match s with
  | [] => (acc, count, [])
  | c :: r =>
      match digitValue radix c with
      | Some d => scanDigits radix r (acc * radix + d)%N (count + 1)%N
      | None => (acc, count, s)
      end
  end.

Fixpoint startsWith (p s : jsstring) : option jsstring :=
  match p, s with
  | [], _ => Some s
  | a :: p', b :: s' => if (a =? b)%N then startsWith p' s' else None
  | _ :: _, [] => None
  end.

(** ** Rounding a decimal to binary64 *)

(** The Number value for [(-1)^neg * m * 10^e]: round to nearest, ties to
    even, overflowing to an infinity. For a negative [e] the quotient is taken
    at a resolution of [2^-1080], finer than half the smallest subnormal, and
    a sticky bit records an inexact division, so the single rounding done by
    [binary_normalize] is the rounding of the exact quotient. *)
Definition ofDecimal (neg : bool) (m : N) (e : Z) : number :=
  let sgn (z : Z) := if neg then Z.opp z else z in
  if (0 <=? e)%Z then
    SF2Prim (binary_normalize prec emax (sgn (Z.of_N m * 10 ^ e)%Z) 0 neg)
  else
    let k := 1080%Z in
    let den := (10 ^ (- e))%Z in
    let num := (Z.of_N m * 2 ^ k)%Z in
    let sticky := if (num mod den =? 0)%Z then 0%Z else 1%Z in
    SF2Prim (binary_normalize prec emax
               (sgn (2 * (num / den) + sticky)%Z) (- (k + 1)) neg).

(** ** [parseFloat] *)

Inductive literal : Type :=
| LInfinity
| LDecimal (m : N) (e : Z).

(** [ExponentPart]: [e] or [E], an optional sign, at least one digit. When
    the digits are missing the exponent is not part of the literal. *)
Definition scanExponent (s : jsstring) : Z :=
  match s with
  | c :: r =>
      if ((c =? 101) || (c =? 69))%N then
        let '(neg, r') :=
          match r with
          | d :: r'' =>
              if (d =? 45)%N then (true, r'')
              else if (d =? 43)%N then (false, r'') else (false, r)
          | [] => (false, r)
          end in
        let '(v, n, _) := scanDigits 10 r' 0%N 0%N in
        if (n =? 0)%N then 0%Z
        else if neg then Z.opp (Z.of_N v) else Z.of_N v
      else 0%Z
  | [] => 0%Z
  end.

(** The longest prefix of [s] that is a [StrUnsignedDecimalLiteral]. *)
Definition scanUnsignedDecimal (s : jsstring) : option literal :=
  match startsWith (str "Infinity") s with
  | Some _ => Some LInfinity
  | None =>
      let '(ip, ni, r1) := scanDigits 10 s 0%N 0%N in
      match r1 with
      | c :: r2 =>
          if (c =? 46)%N then
            let '(m, nall, r3) := scanDigits 10 r2 ip ni in
            if (nall =? 0)%N then None
            else Some (LDecimal m (scanExponent r3 - Z.of_N (nall - ni)))
          else if (ni =? 0)%N then None
          else Some (LDecimal ip (scanExponent r1))
      | [] => if (ni =? 0)%N then None else Some (LDecimal ip 0)
      end
  end.

Definition splitSign (s : jsstring) : bool * jsstring :=
  match s with
  | c :: r =>
      if (c =? 45)%N then (true, r)
      else if (c =? 43)%N then (false, r) else (false, s)
  | [] => (false, s)
  end.

Definition parseFloatString (s : jsstring) : number :=
  let '(neg, u) := splitSign (trimStart s) in
  match scanUnsignedDecimal u with
  | None => nan
  | Some LInfinity => if neg then neg_infinity else infinity
  | Some (LDecimal m e) => ofDecimal neg m e
  end.

(** ** [parseInt] with the radix left undefined *)

Definition parseIntString (s : jsstring) : number :=
  let '(neg, u) := splitSign (trimStart s) in
  let '(radix, z) :=
    match startsWith (str "0x") u, startsWith (str "0X") u with
    | Some r, _ => (16%N, r)
    | None, Some r => (16%N, r)
    | None, None => (10%N, u)
    end in
  let '(v, n, _) := scanDigits radix z 0%N 0%N in
  if (n =? 0)%N then nan
  else
    let mathInt := if neg then Z.opp (Z.of_N v) else Z.of_N v in
    SF2Prim (binary_normalize prec emax mathInt 0 neg).

(** ** [Number::toString] (radix 10) *)

(** [lt10 num den n]: the positive rational [num/den] is below [10^n]. *)
Definition lt10 (num den n : Z) : bool :=
  if (0 <=? n)%Z then (num <? 10 ^ n * den)%Z
  else (num * 10 ^ (- n) <? den)%Z.

(** The decade of a positive rational: the [n] with
    [10^(n-1) <= num/den < 10^n], searched upwards from [n]. *)
Fixpoint findDecade (fuel : nat) (num den n : Z) : Z :=
  match fuel with
  | O => n
  | S fuel' =>
      if lt10 num den n then n else findDecade fuel' num den (n + 1)
  end.

(** The search starts from an under-estimate of the decade taken from the
    binary logarithm ([log10 2] is about 0.30103); the decade is at most
    three steps above it. *)
Definition decade (num den : Z) : Z :=
  let l := (Z.log2 num - Z.log2 den - 1)%Z in
  findDecade 8 num den (l * 30103 / 100000 - 1).

(** The shortest decimal [s * 10^p] that reads back as [x], trying [k] = 1,
    2, ... significant digits. With [k] digits only the two neighbours of
    [x] on the grid of spacing [10^(n0-k)] can read back as [x]; when both do
    the closer one is taken (the even one on a tie). Seventeen digits always
    suffice. *)
Fixpoint shortestDigits (fuel : nat) (x : number) (num den n0 k : Z)
  : Z * Z :=
  let p := (n0 - k)%Z in
  let '(a, b) :=
    if (p <=? 0)%Z then ((num * 10 ^ (- p))%Z, den)
    else (num, (den * 10 ^ p)%Z) in
  let lo := (a / b)%Z in
  let r := (a mod b)%Z in
  let hi := (lo + 1)%Z in
  let readsBack (s : Z) := (ofDecimal false (Z.to_N s) p =? x)%float in
  match readsBack lo, readsBack hi with
  | true, true =>
      if (2 * r <? b)%Z then (lo, p)
      else if (b <? 2 * r)%Z then (hi, p)
      else if Z.even lo then (lo, p) else (hi, p)
  | true, false => (lo, p)
  | false, true => (hi, p)
  | false, false =>
      match fuel with
      | O => (lo, p)
      | S fuel' => shortestDigits fuel' x num den n0 (k + 1)
      end
  end.

Fixpoint stripZeros (digitsRev : jsstring) : jsstring :=
  match digitsRev with
  | c :: r => if (c =? 48)%N then stripZeros r else digitsRev
  | [] => []
  end.

Definition zeros (n : Z) : jsstring := repeat 48%N (Z.to_nat n).

(** Steps 6 to 12 of [Number::toString] for the digits [ds] (none of them a
    trailing zero) of a value [0.d1d2...dk * 10^n]. *)
Definition formatDigits (ds : jsstring) (n : Z) : jsstring :=
  let k := Z.of_nat (List.length ds) in
  if ((k <=? n) && (n <=? 21))%Z then ds ++ zeros (n - k)
  else if ((0 <? n) && (n <=? 21))%Z then
    firstn (Z.to_nat n) ds ++ [46%N] ++ skipn (Z.to_nat n) ds
  else if ((-6 <? n) && (n <=? 0))%Z then
    [48%N; 46%N] ++ zeros (- n) ++ ds
  else
    let e := (n - 1)%Z in
    let expPart :=
      [101%N; if (e <? 0)%Z then 45%N else 43%N] ++ decimal (Z.to_N (Z.abs e)) in
    match ds with
    | [d] => d :: expPart
    | d :: rest => d :: 46%N :: rest ++ expPart
    | [] => expPart
    end.

Definition NumberToString (x : number) : jsstring :=
  match Prim2SF x with
  | S754_nan => str "NaN"
  | S754_zero _ => str "0"
  | S754_infinity s => if s then str "-Infinity" else str "Infinity"
  | S754_finite s m e =>
      let '(num, den) :=
        if (0 <=? e)%Z then ((Zpos m * 2 ^ e)%Z, 1%Z)
        else (Zpos m, (2 ^ (- e))%Z) in
      let n0 := decade num den in
      let '(sd, p) := shortestDigits 17 (abs x) num den n0 1 in
      let all := decimal (Z.to_N sd) in
      let ds := rev (stripZeros (rev all)) in
      let n := (p + Z.of_nat (List.length all))%Z in
      (if s then [45%N] else []) ++ formatDigits ds n
  end.

(** ** [ToString], and the two parsers on arbitrary values *)

Definition ToString (v : value) : jsstring :=
  match v with
  | VUndefined => str "undefined"
  | VNull => str "null"
  | VString s => s
  | VNumber x => NumberToString x
  end.

Definition parseFloat (v : value) : number := parseFloatString (ToString v).

Definition parseInt (v : value) : number := parseIntString (ToString v).

(** ** Arrays of strings *)

(** [Array.prototype.join]. *)
Fixpoint join (sep : jsstring) (xs : list jsstring) : jsstring :=
  match xs with
  | [] => []
  | [x] => x
  | x :: rest => x ++ sep ++ join sep rest
  end.

(** [String.prototype.split] with a one-code-unit separator: the pieces
    between the separators, the piece being built in [cur] (reversed). *)
Fixpoint splitAt (sep : N) (s : jsstring) (cur : jsstring) : list jsstring :=
  match s with
  | [] => [rev cur]
  | c :: r =>
      if (c =? sep)%N then rev cur :: splitAt sep r []
      else splitAt sep r (c :: cur)
  end.

Definition split (sep : N) (s : jsstring) : list jsstring := splitAt sep s [].

(** ** [Number.prototype.toFixed] *)

(** [toFixed(f)]: a value that is not finite, or is at least [10^21] in
    magnitude, prints as [ToString] does; otherwise the integer [n] nearest
    to [x * 10^f] (the larger one on a tie) is printed with [f] digits after
    the point, behind a minus sign when [x < 0]. *)
Definition toFixed (f : N) (x : number) : jsstring :=
  match Prim2SF x with
  | S754_finite s m e =>
      if (abs x <? ofDecimal false 1 21)%float then
        let scaled := (Zpos m * 10 ^ Z.of_N f)%Z in
        let n :=
          if (0 <=? e)%Z then (scaled * 2 ^ e)%Z
          else
            let d := (2 ^ (- e))%Z in
            if (d <=? 2 * (scaled mod d))%Z then (scaled / d + 1)%Z
            else (scaled / d)%Z in
        let ds := decimal (Z.to_N n) in
        let k := N.of_nat (List.length ds) in
        let ds' := if (k <=? f)%N then zeros (Z.of_N (f + 1 - k)) ++ ds else ds in
        let cut := (List.length ds' - N.to_nat f)%nat in
        (if s then [45%N] else [])
          ++ firstn cut ds'
          ++ (if (f =? 0)%N then [] else 46%N :: skipn cut ds')
      else NumberToString x
  | _ => if (x =? 0)%float then
           str "0" ++ (if (f =? 0)%N then [] else 46%N :: zeros (Z.of_N f))
         else NumberToString x
  end.

(** The [||] operator on a possibly missing string. *)
Definition orElse (x : option jsstring) (d : jsstring) : jsstring :=
  match x with
  | Some (c :: r) => c :: r
  | Some [] | None => d
  end.

(** [Array.prototype.push], returning the extended array. *)
Definition push (A : Type) (xs : list A) (x : A) : list A := xs ++ [x].

End JS.

(* ================================================================== *)
(** * The records exchanged by the components *)
(* ================================================================== *)

Import JS.

(** An uploaded image as [ImageUpload.svelte] hands it over (the [File]
    handle itself carries no data the components read). *)
Module Image.
Record t : Type := mk {
  url : jsstring;
  title : jsstring;
  originalFilename : jsstring
}.
End Image.

(** The [metadata] object of a listing item. *)
Module Metadata.
Record t : Type := mk {
  title : jsstring;
  release_date : option jsstring;
  genres : list jsstring;
  director : jsstring;
  actors : list jsstring;
  studio : jsstring;
  rating : jsstring;
  runtime : option number;
  overview : option jsstring
}.
End Metadata.

(** The [price_data] object of a listing item. *)
Module PriceData.
Record t : Type := mk {
  average_price : option number;
  shipping_cost : option number;
  total_cost : option number;
  comparable_listings : list value
}.
End PriceData.

(** The [custom_fields] object of a listing item. *)
Module CustomFields.
Record t : Type := mk {
  price : number;
  quantity : number;
  description : jsstring;
  location : jsstring;
  region_code : jsstring;
  language : jsstring;
  case_type : jsstring;
  features : jsstring
}.
End CustomFields.

(** The listing item built by [transformToBluerayItem]. *)
Module BlurayItem.
Record t : Type := mk {
  title : jsstring;
  condition : jsstring;
  photos : list value;
  metadata : Metadata.t;
  price_data : PriceData.t;
  user_notes : jsstring;
  custom_fields : CustomFields.t
}.
End BlurayItem.

(** The [formData] object of the form. The fields bound to text boxes,
    selects and text areas hold strings; those bound to [type="number"]
    boxes ([price], [quantity], [releaseYear], [runtime], [shippingCost])
    start as strings and hold a number or [null] once edited; [s3Url] holds
    whatever the upload response carries. *)
Module FormData.
Record t : Type := mk {
  title : jsstring;
  condition : jsstring;
  description : jsstring;
  price : value;
  quantity : value;
  location : jsstring;
  movieTitle : jsstring;
  studio : jsstring;
  genre : jsstring;
  subGenre : jsstring;
  director : jsstring;
  actors : jsstring;
  releaseYear : value;
  rating : jsstring;
  runtime : value;
  regionCode : jsstring;
  language : jsstring;
  caseType : jsstring;
  features : jsstring;
  s3Url : value;
  averagePrice : jsstring;
  shippingCost : value;
  totalCost : jsstring;
  userNotes : jsstring
}.

(** Assignment to one property. *)
Definition set_title (v : jsstring) (d : t) : t :=
  mk v (condition d) (description d) (price d) (quantity d) (location d)
     (movieTitle d) (studio d) (genre d) (subGenre d) (director d) (actors
     d) (releaseYear d) (rating d) (runtime d) (regionCode d) (language d)
     (caseType d) (features d) (s3Url d) (averagePrice d) (shippingCost d)
     (totalCost d) (userNotes d).

Definition set_condition (v : jsstring) (d : t) : t :=
  mk (title d) v (description d) (price d) (quantity d) (location d)
     (movieTitle d) (studio d) (genre d) (subGenre d) (director d) (actors
     d) (releaseYear d) (rating d) (runtime d) (regionCode d) (language d)
     (caseType d) (features d) (s3Url d) (averagePrice d) (shippingCost d)
     (totalCost d) (userNotes d).

Definition set_description (v : jsstring) (d : t) : t :=
  mk (title d) (condition d) v (price d) (quantity d) (location d)
     (movieTitle d) (studio d) (genre d) (subGenre d) (director d) (actors
     d) (releaseYear d) (rating d) (runtime d) (regionCode d) (language d)
     (caseType d) (features d) (s3Url d) (averagePrice d) (shippingCost d)
     (totalCost d) (userNotes d).

Definition set_price (v : value) (d : t) : t :=
  mk (title d) (condition d) (description d) v (quantity d) (location d)
     (movieTitle d) (studio d) (genre d) (subGenre d) (director d) (actors
     d) (releaseYear d) (rating d) (runtime d) (regionCode d) (language d)
     (caseType d) (features d) (s3Url d) (averagePrice d) (shippingCost d)
     (totalCost d) (userNotes d).

Definition set_quantity (v : value) (d : t) : t :=
  mk (title d) (condition d) (description d) (price d) v (location d)
     (movieTitle d) (studio d) (genre d) (subGenre d) (director d) (actors
     d) (releaseYear d) (rating d) (runtime d) (regionCode d) (language d)
     (caseType d) (features d) (s3Url d) (averagePrice d) (shippingCost d)
     (totalCost d) (userNotes d).

Definition set_location (v : jsstring) (d : t) : t :=
  mk (title d) (condition d) (description d) (price d) (quantity d) v
     (movieTitle d) (studio d) (genre d) (subGenre d) (director d) (actors
     d) (releaseYear d) (rating d) (runtime d) (regionCode d) (language d)
     (caseType d) (features d) (s3Url d) (averagePrice d) (shippingCost d)
     (totalCost d) (userNotes d).

Definition set_movieTitle (v : jsstring) (d : t) : t :=
  mk (title d) (condition d) (description d) (price d) (quantity d)
     (location d) v (studio d) (genre d) (subGenre d) (director d) (actors
     d) (releaseYear d) (rating d) (runtime d) (regionCode d) (language d)
     (caseType d) (features d) (s3Url d) (averagePrice d) (shippingCost d)
     (totalCost d) (userNotes d).

Definition set_studio (v : jsstring) (d : t) : t :=
  mk (title d) (condition d) (description d) (price d) (quantity d)
     (location d) (movieTitle d) v (genre d) (subGenre d) (director d)
     (actors d) (releaseYear d) (rating d) (runtime d) (regionCode d)
     (language d) (caseType d) (features d) (s3Url d) (averagePrice d)
     (shippingCost d) (totalCost d) (userNotes d).

Definition set_genre (v : jsstring) (d : t) : t :=
  mk (title d) (condition d) (description d) (price d) (quantity d)
     (location d) (movieTitle d) (studio d) v (subGenre d) (director d)
     (actors d) (releaseYear d) (rating d) (runtime d) (regionCode d)
     (language d) (caseType d) (features d) (s3Url d) (averagePrice d)
     (shippingCost d) (totalCost d) (userNotes d).

Definition set_subGenre (v : jsstring) (d : t) : t :=
  mk (title d) (condition d) (description d) (price d) (quantity d)
     (location d) (movieTitle d) (studio d) (genre d) v (director d)
     (actors d) (releaseYear d) (rating d) (runtime d) (regionCode d)
     (language d) (caseType d) (features d) (s3Url d) (averagePrice d)
     (shippingCost d) (totalCost d) (userNotes d).

Definition set_director (v : jsstring) (d : t) : t :=
  mk (title d) (condition d) (description d) (price d) (quantity d)
     (location d) (movieTitle d) (studio d) (genre d) (subGenre d) v
     (actors d) (releaseYear d) (rating d) (runtime d) (regionCode d)
     (language d) (caseType d) (features d) (s3Url d) (averagePrice d)
     (shippingCost d) (totalCost d) (userNotes d).

Definition set_actors (v : jsstring) (d : t) : t :=
  mk (title d) (condition d) (description d) (price d) (quantity d)
     (location d) (movieTitle d) (studio d) (genre d) (subGenre d)
     (director d) v (releaseYear d) (rating d) (runtime d) (regionCode d)
     (language d) (caseType d) (features d) (s3Url d) (averagePrice d)
     (shippingCost d) (totalCost d) (userNotes d).

Definition set_releaseYear (v : value) (d : t) : t :=
  mk (title d) (condition d) (description d) (price d) (quantity d)
     (location d) (movieTitle d) (studio d) (genre d) (subGenre d)
     (director d) (actors d) v (rating d) (runtime d) (regionCode d)
     (language d) (caseType d) (features d) (s3Url d) (averagePrice d)
     (shippingCost d) (totalCost d) (userNotes d).

Definition set_rating (v : jsstring) (d : t) : t :=
  mk (title d) (condition d) (description d) (price d) (quantity d)
     (location d) (movieTitle d) (studio d) (genre d) (subGenre d)
     (director d) (actors d) (releaseYear d) v (runtime d) (regionCode d)
     (language d) (caseType d) (features d) (s3Url d) (averagePrice d)
     (shippingCost d) (totalCost d) (userNotes d).

Definition set_runtime (v : value) (d : t) : t :=
  mk (title d) (condition d) (description d) (price d) (quantity d)
     (location d) (movieTitle d) (studio d) (genre d) (subGenre d)
     (director d) (actors d) (releaseYear d) (rating d) v (regionCode d)
     (language d) (caseType d) (features d) (s3Url d) (averagePrice d)
     (shippingCost d) (totalCost d) (userNotes d).

Definition set_regionCode (v : jsstring) (d : t) : t :=
  mk (title d) (condition d) (description d) (price d) (quantity d)
     (location d) (movieTitle d) (studio d) (genre d) (subGenre d)
     (director d) (actors d) (releaseYear d) (rating d) (runtime d) v
     (language d) (caseType d) (features d) (s3Url d) (averagePrice d)
     (shippingCost d) (totalCost d) (userNotes d).

Definition set_language (v : jsstring) (d : t) : t :=
  mk (title d) (condition d) (description d) (price d) (quantity d)
     (location d) (movieTitle d) (studio d) (genre d) (subGenre d)
     (director d) (actors d) (releaseYear d) (rating d) (runtime d)
     (regionCode d) v (caseType d) (features d) (s3Url d) (averagePrice d)
     (shippingCost d) (totalCost d) (userNotes d).

Definition set_caseType (v : jsstring) (d : t) : t :=
  mk (title d) (condition d) (description d) (price d) (quantity d)
     (location d) (movieTitle d) (studio d) (genre d) (subGenre d)
     (director d) (actors d) (releaseYear d) (rating d) (runtime d)
     (regionCode d) (language d) v (features d) (s3Url d) (averagePrice d)
     (shippingCost d) (totalCost d) (userNotes d).

Definition set_features (v : jsstring) (d : t) : t :=
  mk (title d) (condition d) (description d) (price d) (quantity d)
     (location d) (movieTitle d) (studio d) (genre d) (subGenre d)
     (director d) (actors d) (releaseYear d) (rating d) (runtime d)
     (regionCode d) (language d) (caseType d) v (s3Url d) (averagePrice d)
     (shippingCost d) (totalCost d) (userNotes d).

Definition set_s3Url (v : value) (d : t) : t :=
  mk (title d) (condition d) (description d) (price d) (quantity d)
     (location d) (movieTitle d) (studio d) (genre d) (subGenre d)
     (director d) (actors d) (releaseYear d) (rating d) (runtime d)
     (regionCode d) (language d) (caseType d) (features d) v (averagePrice
     d) (shippingCost d) (totalCost d) (userNotes d).

Definition set_averagePrice (v : jsstring) (d : t) : t :=
  mk (title d) (condition d) (description d) (price d) (quantity d)
     (location d) (movieTitle d) (studio d) (genre d) (subGenre d)
     (director d) (actors d) (releaseYear d) (rating d) (runtime d)
     (regionCode d) (language d) (caseType d) (features d) (s3Url d) v
     (shippingCost d) (totalCost d) (userNotes d).

Definition set_shippingCost (v : value) (d : t) : t :=
  mk (title d) (condition d) (description d) (price d) (quantity d)
     (location d) (movieTitle d) (studio d) (genre d) (subGenre d)
     (director d) (actors d) (releaseYear d) (rating d) (runtime d)
     (regionCode d) (language d) (caseType d) (features d) (s3Url d)
     (averagePrice d) v (totalCost d) (userNotes d).

Definition set_totalCost (v : jsstring) (d : t) : t :=
  mk (title d) (condition d) (description d) (price d) (quantity d)
     (location d) (movieTitle d) (studio d) (genre d) (subGenre d)
     (director d) (actors d) (releaseYear d) (rating d) (runtime d)
     (regionCode d) (language d) (caseType d) (features d) (s3Url d)
     (averagePrice d) (shippingCost d) v (userNotes d).

Definition set_userNotes (v : jsstring) (d : t) : t :=
  mk (title d) (condition d) (description d) (price d) (quantity d)
     (location d) (movieTitle d) (studio d) (genre d) (subGenre d)
     (director d) (actors d) (releaseYear d) (rating d) (runtime d)
     (regionCode d) (language d) (caseType d) (features d) (s3Url d)
     (averagePrice d) (shippingCost d) (totalCost d) v.
End FormData.

(** How a [fetch] and the reading of its response end: a rejection with an
    error message, a response that is not [ok], or the body read. *)
Module Fetch.
Inductive outcome (A : Type) : Type :=
| Rejected (message : jsstring)
| NotOk (status : N)
| Ok (body : A).
Arguments Rejected {A} message.
Arguments NotOk {A} status.
Arguments Ok {A} body.

(** The [message] of the error that reaches the [catch] block. *)
Definition errorMessage (A : Type) (o : outcome A) : jsstring :=
  match o with
  | Rejected message => message
  | NotOk status => str "HTTP error! status: " ++ decimal status
  | Ok _ => []
  end.
End Fetch.

(* ================================================================== *)
(** * [MovieForm.svelte] *)
(* ================================================================== *)

Module MovieForm.

Import Fetch.

Module Loading.
Record t : Type := mk { metadata : bool; pricing : bool; upload : bool }.
End Loading.

Module Errors.
Record t : Type := mk {
  metadata : jsstring;
  pricing : jsstring;
  upload : jsstring;
  submit : jsstring
}.
End Errors.

(** The state of one mounted form. *)
Record state : Type := mkState {
  formData : FormData.t;
  loading : Loading.t;
  errors : Errors.t;
  isSubmitted : bool
}.

Definition withFormData (d : FormData.t) (st : state) : state :=
  mkState d (loading st) (errors st) (isSubmitted st).

Definition withLoading (l : Loading.t) (st : state) : state :=
  mkState (formData st) l (errors st) (isSubmitted st).

Definition withErrors (e : Errors.t) (st : state) : state :=
  mkState (formData st) (loading st) e (isSubmitted st).

(** The state at mount, for the [image] prop. *)
Definition init (image : Image.t) : state :=
  {| formData :=
       {| FormData.title := Image.title image;
          FormData.condition := str "Used";
          FormData.description := [];
          FormData.price := VString (str "12.99");
          FormData.quantity := VString (str "1");
          FormData.location := str "United States";
          FormData.movieTitle := [];
          FormData.studio := [];
          FormData.genre := [];
          FormData.subGenre := [];
          FormData.director := [];
          FormData.actors := [];
          FormData.releaseYear := VString [];
          FormData.rating := str "PG-13";
          FormData.runtime := VString [];
          FormData.regionCode := str "1";
          FormData.language := str "English";
          FormData.caseType := str "Standard Blu-ray Case";
          FormData.features := [];
          FormData.s3Url := VString [];
          FormData.averagePrice := [];
          FormData.shippingCost := VString (str "4.99");
          FormData.totalCost := [];
          FormData.userNotes := [] |};
     loading :=
       {| Loading.metadata := false; Loading.pricing := false;
          Loading.upload := false |};
     errors :=
       {| Errors.metadata := []; Errors.pricing := []; Errors.upload := [];
          Errors.submit := [] |};
     isSubmitted := false |}.

(** ** Validation *)

Definition titleMessage : jsstring := str "Listing title is required".
Definition photoMessage : jsstring := str "Please upload image to AWS first".
Definition priceMessage : jsstring := str "Valid price is required".
Definition quantityMessage : jsstring := str "Valid quantity is required".

(** The conditions of the four [if] statements of [validateForm]. *)
Definition titleMissing (formData : FormData.t) : bool :=
  negb (ToBoolean (VString (trim (FormData.title formData)))).

Definition photoMissing (formData : FormData.t) : bool :=
  negb (ToBoolean (FormData.s3Url formData)).

Definition priceInvalid (formData : FormData.t) : bool :=
  negb (ToBoolean (FormData.price formData))
  || (parseFloat (FormData.price formData) <=? 0)%float.

Definition quantityInvalid (formData : FormData.t) : bool :=
  negb (ToBoolean (FormData.quantity formData))
  || (parseInt (FormData.quantity formData) <=? 0)%float.

(** [validateForm]: the array starts empty and each failing check pushes
    its message. *)
Definition validateForm (formData : FormData.t) : list jsstring :=
  let validationErrors := [] in
  let validationErrors :=
    if titleMissing formData then push validationErrors titleMessage
    else validationErrors in
  let validationErrors :=
    if photoMissing formData then push validationErrors photoMessage
    else validationErrors in
  let validationErrors :=
    if priceInvalid formData then push validationErrors priceMessage
    else validationErrors in
  let validationErrors :=
    if quantityInvalid formData then push validationErrors quantityMessage
    else validationErrors in
  validationErrors.

(** ** Building the item *)

(** [c ? f(v) : null] on a field. *)
Definition whenTruthy (A : Type) (v : value) (f : value -> A) : option A :=
  if ToBoolean v then Some (f v) else None.

Definition transformToBluerayItem (formData : FormData.t) : BlurayItem.t :=
  {| BlurayItem.title := FormData.title formData;
     BlurayItem.condition := FormData.condition formData;
     BlurayItem.photos := [FormData.s3Url formData];
     BlurayItem.metadata :=
       {| Metadata.title :=
            orElse (Some (FormData.movieTitle formData)) (FormData.title formData);
          Metadata.release_date :=
            whenTruthy (FormData.releaseYear formData)
              (fun releaseYear => ToString releaseYear ++ str "-01-01");
          Metadata.genres :=
            filter (fun g => ToBoolean (VString g))
              [FormData.genre formData; FormData.subGenre formData];
          Metadata.director := FormData.director formData;
          Metadata.actors :=
            if ToBoolean (VString (FormData.actors formData))
            then map trim (split 44 (FormData.actors formData))
            else [];
          Metadata.studio := FormData.studio formData;
          Metadata.rating := FormData.rating formData;
          Metadata.runtime := whenTruthy (FormData.runtime formData) parseInt;
          Metadata.overview := None |};
     BlurayItem.price_data :=
       {| PriceData.average_price :=
            whenTruthy (VString (FormData.averagePrice formData)) parseFloat;
          PriceData.shipping_cost :=
            whenTruthy (FormData.shippingCost formData) parseFloat;
          PriceData.total_cost :=
            whenTruthy (VString (FormData.totalCost formData)) parseFloat;
          PriceData.comparable_listings := [] |};
     BlurayItem.user_notes := FormData.userNotes formData;
     BlurayItem.custom_fields :=
       {| CustomFields.price := parseFloat (FormData.price formData);
          CustomFields.quantity := parseInt (FormData.quantity formData);
          CustomFields.description := FormData.description formData;
          CustomFields.location := FormData.location formData;
          CustomFields.region_code := FormData.regionCode formData;
          CustomFields.language := FormData.language formData;
          CustomFields.case_type := FormData.caseType formData;
          CustomFields.features := FormData.features formData |} |}.

(** ** Submission *)

Definition setSubmitError (message : jsstring) (st : state) : state :=
  withErrors
    {| Errors.metadata := Errors.metadata (errors st);
       Errors.pricing := Errors.pricing (errors st);
       Errors.upload := Errors.upload (errors st);
       Errors.submit := message |} st.

Definition setSubmitted (b : bool) (st : state) : state :=
  {| formData := formData st; loading := loading st; errors := errors st;
     isSubmitted := b |}.

(** [handleSubmit], with the [onSubmit] prop as an optional callback acting
    on the state [P] of the parent component: the page passes
    [handleItemSubmit], a form mounted without the prop has none. *)
Definition handleSubmit (P : Type) (onSubmit : option (BlurayItem.t -> P -> P))
    (st : state) (parent : P) : state * P :=
  let st := setSubmitError [] st in
  let validationErrors := validateForm (formData st) in
  if (0 <? List.length validationErrors)%nat then
    (setSubmitError (join (str "; ") validationErrors) st, parent)
  else
    let item := transformToBluerayItem (formData st) in
    let st := setSubmitted true st in
    match onSubmit with
    | Some callback => (st, callback item parent)
    | None => (st, parent)
    end.

(** ** The three lookups *)

Module MetadataResponse.
Record t : Type := mk {
  title : option jsstring;
  studio : option jsstring;
  genres : option (list jsstring);
  director : option jsstring;
  actors : option (list jsstring);
  release_date : option jsstring;
  rating : option jsstring;
  runtime : option number;
  overview : option jsstring
}.
End MetadataResponse.

Module PricingResponse.
Record t : Type := mk {
  average_price : option number;
  shipping_cost : option number;
  total_cost : option number
}.
End PricingResponse.

(** A possibly missing string that is truthy. *)
Definition truthyString (x : option jsstring) : option jsstring :=
  match x with
  | Some (c :: r) => Some (c :: r)
  | Some [] | None => None
  end.

(** A possibly missing number that is truthy. *)
Definition truthyNumber (x : option number) : option number :=
  match x with
  | Some n => if ToBoolean (VNumber n) then Some n else None
  | None => None
  end.

(** [desc += ...] under [if (c)]. *)
Definition appendWhen (A : Type) (c : option A) (f : A -> jsstring)
    (desc : jsstring) : jsstring :=
  match c with
  | Some a => desc ++ f a
  | None => desc
  end.

Definition nonEmptyList (x : option (list jsstring)) : option (list jsstring) :=
  match x with
  | Some (a :: l) => Some (a :: l)
  | Some [] | None => None
  end.

Definition generateDescription (formData : FormData.t)
    (metadata : MetadataResponse.t) : jsstring :=
  let desc := str "<div style='font-family: Arial, sans-serif;'>" in
  let desc := appendWhen (truthyString (MetadataResponse.title metadata))
    (fun t => str "<h3>" ++ t ++ str "</h3>") desc in
  let desc := appendWhen (truthyString (MetadataResponse.overview metadata))
    (fun o => str "<p><strong>Plot:</strong> " ++ firstn 200 o ++ str "...</p>")
    desc in
  let desc := appendWhen (truthyString (MetadataResponse.director metadata))
    (fun d => str "<p><strong>Director:</strong> " ++ d ++ str "</p>") desc in
  let desc := appendWhen (nonEmptyList (MetadataResponse.actors metadata))
    (fun a => str "<p><strong>Cast:</strong> "
              ++ join (str ", ") (firstn 5 a) ++ str "</p>") desc in
  let desc := appendWhen (nonEmptyList (MetadataResponse.genres metadata))
    (fun g => str "<p><strong>Genre:</strong> "
              ++ join (str ", ") g ++ str "</p>") desc in
  let desc := appendWhen (truthyNumber (MetadataResponse.runtime metadata))
    (fun r => str "<p><strong>Runtime:</strong> "
              ++ NumberToString r ++ str " minutes</p>") desc in
  let desc := desc ++ str "<p><strong>Condition:</strong> "
                   ++ FormData.condition formData ++ str "</p>" in
  let desc := desc ++ str "<p><strong>Format:</strong> Blu-ray</p>" in
  let desc := desc ++ str "<p><strong>Region:</strong> Region 1 (US/Canada)</p>" in
  let desc := desc ++
    str "<p>Fast shipping with tracking. Returns accepted within 30 days.</p>" in
  desc ++ str "</div>".

Definition setLoading (f : Loading.t -> Loading.t) (st : state) : state :=
  withLoading (f (loading st)) st.

Definition setError (f : Errors.t -> Errors.t) (st : state) : state :=
  withErrors (f (errors st)) st.

Definition metadataLoading (b : bool) (l : Loading.t) : Loading.t :=
  Loading.mk b (Loading.pricing l) (Loading.upload l).
Definition pricingLoading (b : bool) (l : Loading.t) : Loading.t :=
  Loading.mk (Loading.metadata l) b (Loading.upload l).
Definition uploadLoading (b : bool) (l : Loading.t) : Loading.t :=
  Loading.mk (Loading.metadata l) (Loading.pricing l) b.

Definition metadataError (m : jsstring) (e : Errors.t) : Errors.t :=
  Errors.mk m (Errors.pricing e) (Errors.upload e) (Errors.submit e).
Definition pricingError (m : jsstring) (e : Errors.t) : Errors.t :=
  Errors.mk (Errors.metadata e) m (Errors.upload e) (Errors.submit e).
Definition uploadError (m : jsstring) (e : Errors.t) : Errors.t :=
  Errors.mk (Errors.metadata e) (Errors.pricing e) m (Errors.submit e).

(** [fetchMetadata] up to its [await]. *)
Definition fetchMetadataStart (st : state) : state :=
  setError (metadataError []) (setLoading (metadataLoading true) st).

(** [fetchMetadata] from the [await] on. *)
Definition fetchMetadataDone (o : outcome MetadataResponse.t) (st : state)
  : state :=
  let st :=
    match o with
    | Ok metadata =>
        let d := formData st in
        let d := FormData.set_movieTitle
          (orElse (MetadataResponse.title metadata) (FormData.title d)) d in
        let d := FormData.set_studio
          (orElse (MetadataResponse.studio metadata) []) d in
        let d := FormData.set_genre
          (orElse (match MetadataResponse.genres metadata with
                   | Some g => nth_error g 0 | None => None end) []) d in
        let d := FormData.set_subGenre
          (orElse (match MetadataResponse.genres metadata with
                   | Some g => nth_error g 1 | None => None end) []) d in
        let d := FormData.set_director
          (orElse (MetadataResponse.director metadata) []) d in
        let d := FormData.set_actors
          (orElse (option_map (join (str ", ")) (MetadataResponse.actors metadata))
             []) d in
        let d := FormData.set_releaseYear
          (VString match truthyString (MetadataResponse.release_date metadata) with
                   | Some r => hd [] (split 45 r)
                   | None => []
                   end) d in
        let d := FormData.set_rating
          (orElse (MetadataResponse.rating metadata) (str "PG-13")) d in
        let d := FormData.set_runtime
          (VString match truthyNumber (MetadataResponse.runtime metadata) with
                   | Some r => NumberToString r
                   | None => []
                   end) d in
        let d := FormData.set_description (generateDescription d metadata) d in
        withFormData d st
    | _ =>
        setError (metadataError
          (str "Failed to fetch metadata: " ++
           errorMessage o)) st
    end in
  setLoading (metadataLoading false) st.

(** [fetchPricing] up to its [await]. *)
Definition fetchPricingStart (st : state) : state :=
  setError (pricingError []) (setLoading (pricingLoading true) st).

(** [fetchPricing] from the [await] on. The margin factor [1.15] is the
    binary64 value nearest to 115/100. *)
Definition fetchPricingDone (o : outcome PricingResponse.t) (st : state)
  : state :=
  let st :=
    match o with
    | Ok pricingData =>
        let d := formData st in
        let d := FormData.set_averagePrice
          (orElse (option_map (toFixed 2) (PricingResponse.average_price pricingData))
             []) d in
        let d := FormData.set_shippingCost
          (VString (orElse (option_map (toFixed 2)
                              (PricingResponse.shipping_cost pricingData))
                      (str "4.99"))) d in
        let d := FormData.set_totalCost
          (orElse (option_map (toFixed 2) (PricingResponse.total_cost pricingData))
             []) d in
        let d :=
          match truthyNumber (PricingResponse.average_price pricingData) with
          | Some a =>
              FormData.set_price
                (VString (toFixed 2 (a * ofDecimal false 115 (-2))%float)) d
          | None => d
          end in
        withFormData d st
    | _ =>
        setError (pricingError
          (str "Failed to fetch pricing: " ++
           errorMessage o)) st
    end in
  setLoading (pricingLoading false) st.

(** [uploadToAWS] up to its [await]. *)
Definition uploadToAWSStart (st : state) : state :=
  setError (uploadError []) (setLoading (uploadLoading true) st).

(** [uploadToAWS] from the [await] on. The body is [null] or an array of
    results, each given by the value of its [s3_url] property. *)
Definition uploadToAWSDone (o : outcome (option (list value))) (st : state)
  : state :=
  let st :=
    match o with
    | Ok uploadResults =>
        match uploadResults with
        | Some (first :: _) => withFormData (FormData.set_s3Url first (formData st)) st
        | Some [] | None => st
        end
    | _ =>
        setError (uploadError
          (str "Failed to upload to AWS: " ++
           errorMessage o)) st
    end in
  setLoading (uploadLoading false) st.

(** ** The controls of the form *)

(** The text boxes and text areas with a [bind:value]. *)
Inductive textField : Type :=
| TTitle | TMovieTitle | TStudio | TGenre | TDirector | TActors
| TLanguage | TFeatures | TDescription | TUserNotes.

(** The [type="number"] boxes with a [bind:value]. *)
Inductive numberField : Type :=
| NPrice | NQuantity | NReleaseYear | NRuntime | NShippingCost.

(** The [select] elements with a [bind:value]. *)
Inductive selectField : Type :=
| SCondition | SRating | SRegionCode | SCaseType.

(** The [value] attributes of the [option] elements, in document order. *)
Definition options (f : selectField) : list jsstring :=
  match f with
  | SCondition =>
      [str "New"; str "Like New"; str "Very Good"; str "Good";
       str "Acceptable"; str "Used"]
  | SRating =>
      [str "G"; str "PG"; str "PG-13"; str "R"; str "NC-17"; str "NR"]
  | SRegionCode => [str "1"; str "2"; str "3"; str "0"]
  | SCaseType =>
      [str "Standard Blu-ray Case"; str "Steelbook"; str "Digipak";
       str "Slip Cover"]
  end.

Definition setText (f : textField) (s : jsstring) : FormData.t -> FormData.t :=
  match f with
  | TTitle => FormData.set_title s
  | TMovieTitle => FormData.set_movieTitle s
  | TStudio => FormData.set_studio s
  | TGenre => FormData.set_genre s
  | TDirector => FormData.set_director s
  | TActors => FormData.set_actors s
  | TLanguage => FormData.set_language s
  | TFeatures => FormData.set_features s
  | TDescription => FormData.set_description s
  | TUserNotes => FormData.set_userNotes s
  end.

Definition setNumber (f : numberField) (v : value) : FormData.t -> FormData.t :=
  match f with
  | NPrice => FormData.set_price v
  | NQuantity => FormData.set_quantity v
  | NReleaseYear => FormData.set_releaseYear v
  | NRuntime => FormData.set_runtime v
  | NShippingCost => FormData.set_shippingCost v
  end.

Definition setSelect (f : selectField) (s : jsstring) : FormData.t -> FormData.t :=
  match f with
  | SCondition => FormData.set_condition s
  | SRating => FormData.set_rating s
  | SRegionCode => FormData.set_regionCode s
  | SCaseType => FormData.set_caseType s
  end.

(** What can happen to a mounted form: an edit of a bound control, the
    start or the end of one of the three lookups, a click on the submit
    button. A numeric box writes the number typed, or [null] when empty; a
    select writes the value of the option chosen. What a click on the submit
    button does to the form itself does not depend on the callback, so
    [step] runs it without one. *)
Inductive event : Type :=
| InputText (f : textField) (s : jsstring)
| InputNumber (f : numberField) (x : option number)
| SelectOption (f : selectField) (i : nat)
| MetadataStart
| MetadataDone (o : outcome MetadataResponse.t)
| PricingStart
| PricingDone (o : outcome PricingResponse.t)
| UploadStart
| UploadDone (o : outcome (option (list value)))
| Submit.

Definition step (st : state) (e : event) : state :=
  match e with
  | InputText f s => withFormData (setText f s (formData st)) st
  | InputNumber f x =>
      withFormData
        (setNumber f (match x with Some n => VNumber n | None => VNull end)
           (formData st)) st
  | SelectOption f i =>
      match nth_error (options f) i with
      | Some s => withFormData (setSelect f s (formData st)) st
      | None => st
      end
  | MetadataStart => fetchMetadataStart st
  | MetadataDone o => fetchMetadataDone o st
  | PricingStart => fetchPricingStart st
  | PricingDone o => fetchPricingDone o st
  | UploadStart => uploadToAWSStart st
  | UploadDone o => uploadToAWSDone o st
  | Submit => fst (handleSubmit None st tt)
  end.

Definition run (st : state) (es : list event) : state := fold_left step es st.

End MovieForm.

(* ================================================================== *)
(** * [routes/+page.svelte] *)
(* ================================================================== *)

Module Page.

Import Fetch.

Definition API_BASE : jsstring := str "http://localhost:8000".

(** The state of the page; [submittedItems] is the store of accepted
    records, in submission order. *)
Record state : Type := mk {
  uploadedImages : list Image.t;
  currentIndex : Z;
  submittedItems : list BlurayItem.t;
  isDownloading : bool;
  downloadError : jsstring
}.

Definition init : state :=
  {| uploadedImages := []; currentIndex := 0; submittedItems := [];
     isDownloading := false; downloadError := [] |}.

Definition setCurrentIndex (i : Z) (st : state) : state :=
  {| uploadedImages := uploadedImages st; currentIndex := i;
     submittedItems := submittedItems st; isDownloading := isDownloading st;
     downloadError := downloadError st |}.

Definition setSubmittedItems (items : list BlurayItem.t) (st : state) : state :=
  {| uploadedImages := uploadedImages st; currentIndex := currentIndex st;
     submittedItems := items; isDownloading := isDownloading st;
     downloadError := downloadError st |}.

Definition setIsDownloading (b : bool) (st : state) : state :=
  {| uploadedImages := uploadedImages st; currentIndex := currentIndex st;
     submittedItems := submittedItems st; isDownloading := b;
     downloadError := downloadError st |}.

Definition setDownloadError (message : jsstring) (st : state) : state :=
  {| uploadedImages := uploadedImages st; currentIndex := currentIndex st;
     submittedItems := submittedItems st; isDownloading := isDownloading st;
     downloadError := message |}.

Definition lengthOf (A : Type) (xs : list A) : Z := Z.of_nat (List.length xs).

Definition handleImagesUploaded (images : list Image.t) (st : state) : state :=
  {| uploadedImages := images; currentIndex := 0; submittedItems := [];
     isDownloading := isDownloading st; downloadError := downloadError st |}.

Definition handleItemSubmit (item : BlurayItem.t) (st : state) : state :=
  let st := setSubmittedItems (push (submittedItems st) item) st in
  if (currentIndex st <? lengthOf (uploadedImages st) - 1)%Z then
    setCurrentIndex (currentIndex st + 1) st
  else st.

Definition goToPrevious (st : state) : state :=
  if (0 <? currentIndex st)%Z then setCurrentIndex (currentIndex st - 1) st
  else st.

Definition goToNext (st : state) : state :=
  if (currentIndex st <? lengthOf (uploadedImages st) - 1)%Z then
    setCurrentIndex (currentIndex st + 1) st
  else st.

Definition goToImage (index : Z) (st : state) : state :=
  setCurrentIndex index st.

Definition isItemSubmitted (index : Z) (st : state) : bool :=
  (index <? lengthOf (submittedItems st))%Z.

(** ** Export *)

(** The request of [downloadCSV]; [body] stands for
    [JSON.stringify(submittedItems)], a function of the array. *)
Record request : Type := mkRequest {
  url : jsstring;
  method : jsstring;
  body : list BlurayItem.t
}.

(** The file offered to the browser through the anchor element. *)
Record download : Type := mkDownload {
  filename : jsstring;
  content : jsstring
}.

(** The [download] attribute for a store of [n] items. *)
Definition downloadName (n : nat) : jsstring :=
  str "ebay_bluray_listings_" ++ decimal (N.of_nat n) ++ str "_items.csv".

(** [downloadCSV] up to its first [await]: the request sent, if any. *)
Definition downloadCSVStart (st : state) : state * option request :=
  if (List.length (submittedItems st) =? 0)%nat then
    (setDownloadError (str "No items to export") st, None)
  else
    let st := setIsDownloading true st in
    let st := setDownloadError [] st in
    (st,
     Some {| url := API_BASE ++ str "/template/generate-csv";
             method := str "POST";
             body := submittedItems st |}).

(** [downloadCSV] from the [await]s on, given how the request and the
    reading of the blob ended: the file offered, if any. The name of the
    file is built here, from the length the array has by then. *)
Definition downloadCSVDone (o : outcome jsstring) (st : state)
  : state * option download :=
  match o with
  | Ok blob =>
      (setIsDownloading false st,
       Some {| filename := downloadName (List.length (submittedItems st));
               content := blob |})
  | _ =>
      let st := setDownloadError (str "Failed to generate CSV: " ++ errorMessage o) st in
      (setIsDownloading false st, None)
  end.

(** One whole run of [downloadCSV] against a backend that answers [server]
    to a request, with nothing else happening in between. *)
Definition downloadCSV (server : request -> outcome jsstring) (st : state)
  : state * option request * option download :=
  match downloadCSVStart st with
  | (st', None) => (st', None, None)
  | (st', Some rq) =>
      let '(st'', file) := downloadCSVDone (server rq) st' in
      (st'', Some rq, file)
  end.

(** ** The page and its form together *)

(** The submit button of a form whose [onSubmit] prop is
    [handleItemSubmit], as the page mounts it. *)
Definition submit (form : MovieForm.state) (st : state)
  : MovieForm.state * state :=
  MovieForm.handleSubmit (Some handleItemSubmit) form st.

(** What can happen to the page. A click on the submit button carries the
    state of the form at that moment. *)
Inductive event : Type :=
| ImagesUploaded (images : list Image.t)
| FormSubmit (form : MovieForm.state)
| Previous
| Next
| GoTo (index : Z)
| ExportStart
| ExportDone (o : outcome jsstring).

Definition step (st : state) (e : event) : state :=
  match e with
  | ImagesUploaded images => handleImagesUploaded images st
  | FormSubmit form => snd (submit form st)
  | Previous => goToPrevious st
  | Next => goToNext st
  | GoTo index => goToImage index st
  | ExportStart => fst (downloadCSVStart st)
  | ExportDone o => fst (downloadCSVDone o st)
  end.

Definition run (st : state) (es : list event) : state := fold_left step es st.

End Page.

(* ================================================================== *)
(** * The defaults resolver of the listing engine *)
(* ================================================================== *)

Module DefaultsResolver.

Local Open Scope string_scope.

(** Modelled from the spec: the resolver of section 4.2 belongs to the
    conversational server of the repository, whose code is not among the
    sources; this is the condition domain of a listing record (section 3). *)
Inductive Condition : Type :=
| New | NewOther | Used | VeryGood | Good | Acceptable.

(** Modelled from the spec: the names of the condition domain (section 3). *)
Definition conditionName (c : Condition) : string :=
  match c with
  | New => "New"
  | NewOther => "New other"
  | Used => "Used"
  | VeryGood => "Very Good"
  | Good => "Good"
  | Acceptable => "Acceptable"
  end.

(** Modelled from the spec: a listing record as far as the resolver is
    concerned, the enumerated condition and the remaining fields by name. *)
Record ListingRecord : Type := mkRecord {
  condition : Condition;
  fields : list (string * string)
}.

(** Modelled from the spec: the partial field set handed to the resolver;
    [explicitCondition] is [None] when no condition field is supplied. *)
Record Partial : Type := mkPartial {
  explicitCondition : option Condition;
  explicitFields : list (string * string)
}.

(** Modelled from the spec: the error kind [UnrecognizedOverride] of
    section 7, with the field and the value that was not recognized. *)
Inductive error : Type :=
| UnrecognizedOverride (field value : string).

(** Modelled from the spec: the outcome of resolving, a record or an
    error. *)
Inductive result (A : Type) : Type :=
| Resolved (a : A)
| Failed (e : error).
Arguments Resolved {A} a.
Arguments Failed {A} e.

(** Modelled from the spec: reading a mapping keyed by name (the override
    mapping, the coercion table). *)
Fixpoint lookup (A : Type) (k : string) (m : list (string * A)) : option A :=
  match m with
  | [] => None
  | (k', v) :: rest => if String.eqb k k' then Some v else lookup k rest
  end.

(** Modelled from the spec: replacing the value of one field. *)
Fixpoint replace (k v : string) (m : list (string * string))
  : list (string * string) :=
  match m with
  | [] => [(k, v)]
  | (k', v') :: rest =>
      if String.eqb k k' then (k, v) :: rest else (k', v') :: replace k v rest
  end.

Section Resolve.

(** The fixed coercion table for condition phrases; the specification names
    one of its entries, [like new] for [New other]. *)
Variable coercionTable : list (string * Condition).

(** Modelled from the spec: one override replaces the value of its field;
    the condition goes through the coercion table and a phrase missing from
    it is an [UnrecognizedOverride], not the default (section 4.2). *)
Definition applyOverride (r : ListingRecord) (kv : string * string)
  : result ListingRecord :=
  let '(k, v) := kv in
  if String.eqb k "condition" then
    match lookup v coercionTable with
    | Some c => Resolved (mkRecord c (fields r))
    | None => Failed (UnrecognizedOverride k v)
    end
  else Resolved (mkRecord (condition r) (replace k v (fields r))).

(** Modelled from the spec: every key of the override mapping is applied;
    the first unrecognized value ends the resolution. *)
Fixpoint applyOverrides (r : ListingRecord) (overrides : list (string * string))
  : result ListingRecord :=
  match overrides with
  | [] => Resolved r
  | kv :: rest =>
      match applyOverride r kv with
      | Resolved r' => applyOverrides r' rest
      | Failed e => Failed e
      end
  end.

(** Modelled from the spec: the configured defaults filled in with the
    fields the caller supplies. *)
Definition applyPartial (defaults : ListingRecord) (p : Partial) : ListingRecord :=
  mkRecord
    (match explicitCondition p with Some c => c | None => condition defaults end)
    (fold_left (fun m kv => replace (fst kv) (snd kv) m) (explicitFields p)
       (fields defaults)).

(** Modelled from the spec: [DefaultsResolver.resolve] (section 4.2), start
    from the configured defaults, then apply every override. *)
Definition resolve (defaults : ListingRecord) (p : Partial)
    (overrides : list (string * string)) : result ListingRecord :=
  applyOverrides (applyPartial defaults p) overrides.

End Resolve.

End DefaultsResolver.

(* ================================================================== *)
(** * Notions used in the statements *)
(* ================================================================== *)

Import Fetch.

(** A form passes validation. *)
Definition accepted (form : MovieForm.state) : bool :=
  match MovieForm.validateForm (MovieForm.formData form) with
  | [] => true
  | _ :: _ => false
  end.

(** The record a form stands for. *)
Definition itemOf (form : MovieForm.state) : BlurayItem.t :=
  MovieForm.transformToBluerayItem (MovieForm.formData form).

(** One photo reference, present: within the bounds of one and twelve. *)
Definition onePhoto (item : BlurayItem.t) : Prop :=
  exists u,
    BlurayItem.photos item = [u]
    /\ ToBoolean u = true
    /\ (1 <= List.length (BlurayItem.photos item) <= 12)%nat.

(** The events that neither add to the store nor clear it. *)
Definition keepsStore (e : Page.event) : bool :=
  match e with
  | Page.ImagesUploaded _ | Page.FormSubmit _ => false
  | Page.Previous | Page.Next | Page.GoTo _
  | Page.ExportStart | Page.ExportDone _ => true
  end.

(** The request one run of [downloadCSV] sends, as a function of the store
    alone. *)
Definition sentRequest (items : list BlurayItem.t) : option Page.request :=
  match items with
  | [] => None
  | _ :: _ =>
      Some (Page.mkRequest (Page.API_BASE ++ str "/template/generate-csv")
              (str "POST") items)
  end.

(** The file one run of [downloadCSV] offers, as a function of the store
    and of the backend. *)
Definition offeredFile (server : Page.request -> outcome jsstring)
    (items : list BlurayItem.t) : option Page.download :=
  match sentRequest items with
  | None => None
  | Some rq =>
      match server rq with
      | Ok blob => Some (Page.mkDownload (Page.downloadName (List.length items)) blob)
      | _ => None
      end
  end.

(** The condition domain as the specification lists it. *)
Definition specConditionDomain : list jsstring :=
  map (fun c => str (DefaultsResolver.conditionName c))
    [DefaultsResolver.New; DefaultsResolver.NewOther; DefaultsResolver.Used;
     DefaultsResolver.VeryGood; DefaultsResolver.Good;
     DefaultsResolver.Acceptable].

(* ================================================================== *)
(** * Sample data *)
(* ================================================================== *)

(** An uploaded image and the address it is stored under. *)
Definition darkKnight : Image.t :=
  Image.mk (str "blob:http://localhost:5173/1") (str "The Dark Knight")
    (str "the-dark-knight.jpg").

Definition darkKnightUrl : value :=
  VString (str "https://bucket.s3.amazonaws.com/the-dark-knight.jpg").

(** The form for [darkKnight] right after mounting: nothing uploaded yet. *)
Definition freshForm : MovieForm.state := MovieForm.init darkKnight.

(** The same form once the image is stored. *)
Definition uploadedForm : MovieForm.state :=
  MovieForm.run freshForm
    [MovieForm.UploadStart; MovieForm.UploadDone (Ok (Some [darkKnightUrl]))].

(** A form with every check failing: blank title, no image, price zero,
    empty quantity box. *)
Definition brokenForm : MovieForm.state :=
  MovieForm.run freshForm
    [MovieForm.InputText MovieForm.TTitle (str "   ");
     MovieForm.InputNumber MovieForm.NPrice (Some 0%float);
     MovieForm.InputNumber MovieForm.NQuantity None].

(** The form for [darkKnight] with the second condition option chosen and
    the image stored. *)
Definition likeNewForm : MovieForm.state :=
  MovieForm.run freshForm
    [MovieForm.SelectOption MovieForm.SCondition 1;
     MovieForm.UploadStart;
     MovieForm.UploadDone (Ok (Some [darkKnightUrl]))].

(** A page with one image and its record submitted. *)
Definition onePage : Page.state :=
  Page.run Page.init
    [Page.ImagesUploaded [darkKnight]; Page.FormSubmit uploadedForm].

(** A backend answering every request with the same two lines. *)
Definition sampleServer (rq : Page.request) : outcome jsstring :=
  Ok (str "*Action,*Title" ++ [10%N] ++ str "Add,The Dark Knight").

(** A coercion table with the phrase of the specification and the names of
    the domain. *)
Definition sampleTable : list (string * DefaultsResolver.Condition) :=
  [("like new", DefaultsResolver.NewOther);
   ("new", DefaultsResolver.New);
   ("used", DefaultsResolver.Used);
   ("very good", DefaultsResolver.VeryGood);
   ("good", DefaultsResolver.Good);
   ("acceptable", DefaultsResolver.Acceptable)]%string.

(** Defaults with the documented default condition. *)
Definition sampleDefaults : DefaultsResolver.ListingRecord :=
  DefaultsResolver.mkRecord DefaultsResolver.VeryGood
    [("location", "Los Angeles, CA"); ("caseType", "Standard Blu-ray Case")]%string.

(* ================================================================== *)
(** * Properties *)
(* ================================================================== *)

(** ** The runtime fragment on examples *)

Example parseFloat_examples :
  map (fun s => parseFloat (VString (str s)))
    ["12.99"; "  -3.5e2x"; ".5"; "5."; "1e"; "0.00"; "Infinityx"; "1e-400"]%string
  = [12.99; -350; 0.5; 5; 1; 0; infinity; 0]%float.
Proof. vm_compute. reflexivity. Qed.

Example parseFloat_not_a_number :
  map (fun s => isNaN (parseFloat (VString (str s))))
    ["abc"; ""; "."; "-"; "e5"; "12"]%string
  = [true; true; true; true; true; false].
Proof. vm_compute. reflexivity. Qed.

Example parseInt_examples :
  map (fun s => parseInt (VString (str s)))
    ["1"; "1.5"; "0.5"; " 42px"; "0x1F"; "007"]%string
  = [1; 1; 0; 42; 31; 7]%float.
Proof. vm_compute. reflexivity. Qed.

Example parse_number_examples :
  map (fun x => (parseFloat (VNumber x), parseInt (VNumber x)))
    [12.99; 1.5; 0.5; 1e21; 5e-7]%float
  = [(12.99, 12); (1.5, 1); (0.5, 0); (1e21, 1); (5e-7, 5)]%float.
Proof. vm_compute. reflexivity. Qed.

Example NumberToString_examples :
  map NumberToString [12.99; 1.5; 1e21; 5e-7; 100; 0.000001; 3; -0.25]%float
  = map str
      ["12.99"; "1.5"; "1e+21"; "5e-7"; "100"; "0.000001"; "3"; "-0.25"]%string.
Proof. vm_compute. reflexivity. Qed.

Example toFixed_examples :
  map (toFixed 2) [12.99; 14.9385; 0.005; 1.005; 0; 1e21; -5.75]%float
  = map str
      ["12.99"; "14.94"; "0.01"; "1.00"; "0.00"; "1e+21"; "-5.75"]%string.
Proof. vm_compute. reflexivity. Qed.

Example length_rendering_examples :
  map (fun n => NumberToString (ofDecimal false n 0)) [0; 1; 2; 10; 93; 4294967295]%N
  = map decimal [0; 1; 2; 10; 93; 4294967295]%N.
Proof. vm_compute. reflexivity. Qed.

Example trim_example :
  trim (str "  The Dark  Knight ") = str "The Dark  Knight" /\
  trim (str "   ") = [].
Proof. split; reflexivity. Qed.

(** ** Strings and numerals *)

Lemma str_inj (a b : string) : str a = str b -> a = b.
Proof.
  unfold str. intros H.
  assert (Hl : list_ascii_of_string a = list_ascii_of_string b).
  { revert H. generalize (list_ascii_of_string a) (list_ascii_of_string b).
    induction l as [|x l IH]; intros [|y l'] H; simpl in H;
      try discriminate; auto.
    injection H as Hx Hl. f_equal; auto.
    rewrite <- (ascii_N_embedding x), <- (ascii_N_embedding y), Hx.
    reflexivity. }
  rewrite <- (string_of_list_ascii_of_string a),
          <- (string_of_list_ascii_of_string b), Hl.
  reflexivity.
Qed.

Lemma decimal_inj (n m : N) : decimal n = decimal m -> n = m.
Proof.
  unfold decimal. intros H. apply str_inj in H.
  assert (Hu : N.to_uint n = N.to_uint m).
  { assert (Hs : Some (N.to_uint n) = Some (N.to_uint m)).
    { rewrite <- (NilEmpty.usu (N.to_uint n)),
              <- (NilEmpty.usu (N.to_uint m)), H. reflexivity. }
    injection Hs as Hs. exact Hs. }
  rewrite <- (DecimalN.Unsigned.of_to n), <- (DecimalN.Unsigned.of_to m), Hu.
  reflexivity.
Qed.

(** ** Validation, check by check *)

(** Case analysis on the outcome of the four checks. *)
Ltac by_checks formData :=
  destruct (MovieForm.titleMissing formData),
           (MovieForm.photoMissing formData),
           (MovieForm.priceInvalid formData),
           (MovieForm.quantityInvalid formData).

Lemma validateForm_checks (formData : FormData.t) :
  MovieForm.validateForm formData =
    (if MovieForm.titleMissing formData then [MovieForm.titleMessage] else [])
    ++ (if MovieForm.photoMissing formData then [MovieForm.photoMessage] else [])
    ++ (if MovieForm.priceInvalid formData then [MovieForm.priceMessage] else [])
    ++ (if MovieForm.quantityInvalid formData
        then [MovieForm.quantityMessage] else []).
Proof.
  unfold MovieForm.validateForm, push.
  by_checks formData; reflexivity.
Qed.

Lemma validateForm_accepts_iff (formData : FormData.t) :
  MovieForm.validateForm formData = [] <->
  MovieForm.titleMissing formData = false /\
  MovieForm.photoMissing formData = false /\
  MovieForm.priceInvalid formData = false /\
  MovieForm.quantityInvalid formData = false.
Proof.
  rewrite validateForm_checks.
  by_checks formData; simpl;
    split; intros H; try discriminate; auto;
    destruct H as (H1 & H2 & H3 & H4); discriminate.
Qed.

(** ** [handleSubmit], case by case *)

Lemma handleSubmit_rejects (P : Type) (onSubmit : option (BlurayItem.t -> P -> P))
    (st : MovieForm.state) (parent : P) :
  MovieForm.validateForm (MovieForm.formData st) <> [] ->
  MovieForm.handleSubmit onSubmit st parent =
    (MovieForm.setSubmitError
       (join (str "; ") (MovieForm.validateForm (MovieForm.formData st)))
       (MovieForm.setSubmitError [] st),
     parent).
Proof.
  intros H. unfold MovieForm.handleSubmit. simpl.
  destruct (MovieForm.validateForm (MovieForm.formData st)); [congruence|].
  reflexivity.
Qed.

Lemma handleSubmit_accepts (P : Type) (callback : BlurayItem.t -> P -> P)
    (st : MovieForm.state) (parent : P) :
  MovieForm.validateForm (MovieForm.formData st) = [] ->
  MovieForm.handleSubmit (Some callback) st parent =
    (MovieForm.mkState (MovieForm.formData st) (MovieForm.loading st)
       (MovieForm.errors (MovieForm.setSubmitError [] st)) true,
     callback (MovieForm.transformToBluerayItem (MovieForm.formData st)) parent).
Proof.
  intros H. unfold MovieForm.handleSubmit. simpl. rewrite H. reflexivity.
Qed.

Lemma handleSubmit_message (P : Type) (onSubmit : option (BlurayItem.t -> P -> P))
    (st : MovieForm.state) (parent : P) :
  MovieForm.Errors.submit
    (MovieForm.errors (fst (MovieForm.handleSubmit onSubmit st parent)))
  = join (str "; ") (MovieForm.validateForm (MovieForm.formData st)).
Proof.
  unfold MovieForm.handleSubmit. simpl.
  destruct (MovieForm.validateForm (MovieForm.formData st)) eqn:E; simpl.
  - destruct onSubmit; reflexivity.
  - reflexivity.
Qed.

(** ** The sample forms *)

Example brokenForm_reports_four :
  MovieForm.validateForm (MovieForm.formData brokenForm)
  = [MovieForm.titleMessage; MovieForm.photoMessage;
     MovieForm.priceMessage; MovieForm.quantityMessage] /\
  MovieForm.Errors.submit
    (MovieForm.errors (fst (Page.submit brokenForm Page.init)))
  = str ("Listing title is required; Please upload image to AWS first; "
         ++ "Valid price is required; Valid quantity is required").
Proof. split; vm_compute; reflexivity. Qed.

Example uploadedForm_is_valid :
  MovieForm.validateForm (MovieForm.formData uploadedForm) = [].
Proof. vm_compute. reflexivity. Qed.

(** ** Every failure is reported *)

(** C1: [validateForm] returns the messages of all the failing checks, in
    the order title, photo, price, quantity: a message is in the result
    exactly when its check fails, whatever the outcome of the checks before
    it, and [handleSubmit] hands all of them to the caller at once, joined
    by [; ] in [errors.submit]. *)
Theorem validateForm_reports_every_failure :
  forall (st : MovieForm.state) (P : Type)
         (onSubmit : option (BlurayItem.t -> P -> P)) (parent : P),
    let formData := MovieForm.formData st in
    let failures := MovieForm.validateForm formData in
    failures =
      map snd
        (filter (fun check => fst check formData)
           [(MovieForm.titleMissing, MovieForm.titleMessage);
            (MovieForm.photoMissing, MovieForm.photoMessage);
            (MovieForm.priceInvalid, MovieForm.priceMessage);
            (MovieForm.quantityInvalid, MovieForm.quantityMessage)])
    /\ (In MovieForm.titleMessage failures <->
        MovieForm.titleMissing formData = true)
    /\ (In MovieForm.photoMessage failures <->
        MovieForm.photoMissing formData = true)
    /\ (In MovieForm.priceMessage failures <->
        MovieForm.priceInvalid formData = true)
    /\ (In MovieForm.quantityMessage failures <->
        MovieForm.quantityInvalid formData = true)
    /\ MovieForm.Errors.submit
         (MovieForm.errors (fst (MovieForm.handleSubmit onSubmit st parent)))
       = join (str "; ") failures.
Proof.
  intros st P onSubmit parent formData failures.
  assert (Hneq :
    MovieForm.titleMessage <> MovieForm.photoMessage /\
    MovieForm.titleMessage <> MovieForm.priceMessage /\
    MovieForm.titleMessage <> MovieForm.quantityMessage /\
    MovieForm.photoMessage <> MovieForm.priceMessage /\
    MovieForm.photoMessage <> MovieForm.quantityMessage /\
    MovieForm.priceMessage <> MovieForm.quantityMessage).
  { repeat split; intros H; apply str_inj in H; discriminate. }
  destruct Hneq as (N1 & N2 & N3 & N4 & N5 & N6).
  subst failures. rewrite handleSubmit_message.
  fold formData. rewrite (validateForm_checks formData). simpl.
  by_checks formData; simpl;
    repeat split; auto; intros H;
    repeat (destruct H as [H|H]; try solve [congruence | symmetry in H; congruence | contradiction]);
    try discriminate; try contradiction.
Qed.

(** ** A record without a photo *)

Lemma join_cons_nonempty (sep x : jsstring) (xs : list jsstring) :
  x <> [] -> join sep (x :: xs) <> [].
Proof.
  intros Hx. destruct xs; simpl.
  - exact Hx.
  - destruct x; [congruence | discriminate].
Qed.

(** C2: a form whose image reference is missing ([s3Url] falsy: the initial
    empty string, [null] or [undefined]) fails validation with the image
    message among the failures; submitting it shows that message, does not
    mark the form submitted, and leaves the page, and so the store and its
    length, exactly as they were. *)
Theorem missing_photo_is_rejected :
  forall (form : MovieForm.state) (page : Page.state),
    ToBoolean (FormData.s3Url (MovieForm.formData form)) = false ->
    let failures := MovieForm.validateForm (MovieForm.formData form) in
    let after := Page.submit form page in
    In MovieForm.photoMessage failures
    /\ MovieForm.Errors.submit (MovieForm.errors (fst after))
       = join (str "; ") failures
    /\ MovieForm.Errors.submit (MovieForm.errors (fst after)) <> []
    /\ MovieForm.isSubmitted (fst after) = MovieForm.isSubmitted form
    /\ snd after = page
    /\ Page.submittedItems (snd after) = Page.submittedItems page
    /\ List.length (Page.submittedItems (snd after))
       = List.length (Page.submittedItems page).
Proof.
  intros form page Hphoto failures after.
  assert (Hmiss : MovieForm.photoMissing (MovieForm.formData form) = true).
  { unfold MovieForm.photoMissing. rewrite Hphoto. reflexivity. }
  assert (Hin : In MovieForm.photoMessage failures).
  { subst failures. rewrite validateForm_checks, Hmiss.
    apply in_or_app. right. left. reflexivity. }
  assert (Hne : failures <> []).
  { intros E. rewrite E in Hin. contradiction. }
  assert (Hafter : after =
    (MovieForm.setSubmitError (join (str "; ") failures)
       (MovieForm.setSubmitError [] form), page)).
  { subst after. unfold Page.submit. apply handleSubmit_rejects. exact Hne. }
  rewrite Hafter. simpl.
  repeat split; auto.
  destruct failures as [|m rest] eqn:E; [congruence|].
  apply join_cons_nonempty.
  assert (Hm : In m (MovieForm.validateForm (MovieForm.formData form))).
  { fold failures. rewrite E. left. reflexivity. }
  rewrite validateForm_checks in Hm.
  repeat (apply in_app_or in Hm; destruct Hm as [Hm|Hm]);
    match type of Hm with
    | In _ (if ?b then _ else _) => destruct b
    end; simpl in Hm; try contradiction;
    destruct Hm as [Hm|[]]; subst m; discriminate.
Qed.

(** The scenario of C2: the freshly mounted form has no image, and the
    empty store stays empty. *)
Lemma missing_photo_is_rejected_witness :
  ToBoolean (FormData.s3Url (MovieForm.formData freshForm)) = false /\
  In MovieForm.photoMessage
     (MovieForm.validateForm (MovieForm.formData freshForm)) /\
  List.length (Page.submittedItems (snd (Page.submit freshForm Page.init))) = 0%nat.
Proof.
  split; [reflexivity|].
  pose proof (missing_photo_is_rejected freshForm Page.init eq_refl) as H.
  cbv zeta in H.
  destruct H as (H1 & _ & _ & _ & _ & _ & H7).
  split; [exact H1 | exact H7].
Defined.

(** ** What an accepted record satisfies *)


Lemma validateForm_accepts_only (formData : FormData.t) :
  MovieForm.validateForm formData = [] ->
  trim (FormData.title formData) <> []
  /\ ToBoolean (FormData.s3Url formData) = true
  /\ ToBoolean (FormData.price formData) = true
  /\ (parseFloat (FormData.price formData) <=? 0)%float = false
  /\ ToBoolean (FormData.quantity formData) = true
  /\ (parseInt (FormData.quantity formData) <=? 0)%float = false.
Proof.
  intros H. apply validateForm_accepts_iff in H.
  destruct H as (Ht & Hp & Hpr & Hq).
  unfold MovieForm.titleMissing, MovieForm.photoMissing,
    MovieForm.priceInvalid, MovieForm.quantityInvalid in *.
  apply negb_false_iff in Ht, Hp.
  apply orb_false_iff in Hpr, Hq.
  destruct Hpr as (Hpr1 & Hpr2), Hq as (Hq1 & Hq2).
  apply negb_false_iff in Hpr1, Hq1.
  repeat split; auto.
  intros E. simpl in Ht. rewrite E in Ht. discriminate.
Qed.


(** A quantity with a fraction typed in the number box is accepted as well;
    the record carries its integer part. *)
Example fractional_quantity_is_truncated :
  let form := MovieForm.step uploadedForm
                (MovieForm.InputNumber MovieForm.NQuantity (Some 1.5%float)) in
  MovieForm.validateForm (MovieForm.formData form) = []
  /\ CustomFields.quantity (BlurayItem.custom_fields (itemOf form)) = 1%float.
Proof. vm_compute. split; reflexivity. Qed.



(** ** The condition of a record *)

(** Only the condition select assigns [formData.condition]. *)
Lemma setText_condition (f : MovieForm.textField) (s : jsstring) (d : FormData.t) :
  FormData.condition (MovieForm.setText f s d) = FormData.condition d.
Proof. destruct f; reflexivity. Qed.

Lemma setNumber_condition (f : MovieForm.numberField) (v : value) (d : FormData.t) :
  FormData.condition (MovieForm.setNumber f v d) = FormData.condition d.
Proof. destruct f; reflexivity. Qed.

Lemma handleSubmit_formData (P : Type) (onSubmit : option (BlurayItem.t -> P -> P))
    (st : MovieForm.state) (parent : P) :
  MovieForm.formData (fst (MovieForm.handleSubmit onSubmit st parent))
  = MovieForm.formData st.
Proof.
  unfold MovieForm.handleSubmit. simpl.
  destruct (MovieForm.validateForm (MovieForm.formData st)); simpl;
    [destruct onSubmit|]; reflexivity.
Qed.

Lemma step_condition (st : MovieForm.state) (e : MovieForm.event) :
  In (FormData.condition (MovieForm.formData st))
     (MovieForm.options MovieForm.SCondition) ->
  In (FormData.condition (MovieForm.formData (MovieForm.step st e)))
     (MovieForm.options MovieForm.SCondition).
Proof.
  intros H. destruct e as [f s|f x|f i| |o| |o| |o| ]; simpl.
  - rewrite setText_condition. exact H.
  - rewrite setNumber_condition. exact H.
  - destruct (nth_error (MovieForm.options f) i) as [s|] eqn:E; [|exact H].
    destruct f; simpl; try exact H.
    apply nth_error_In in E. exact E.
  - exact H.
  - destruct o; simpl; exact H.
  - exact H.
  - destruct o as [m|n|p]; simpl; try exact H.
    destruct (MovieForm.truthyNumber (MovieForm.PricingResponse.average_price p));
      simpl; exact H.
  - exact H.
  - destruct o as [m|n|[[|u l]|]]; simpl; exact H.
  - rewrite handleSubmit_formData. exact H.
Qed.

Lemma run_condition (es : list MovieForm.event) (st : MovieForm.state) :
  In (FormData.condition (MovieForm.formData st))
     (MovieForm.options MovieForm.SCondition) ->
  In (FormData.condition (MovieForm.formData (MovieForm.run st es)))
     (MovieForm.options MovieForm.SCondition).
Proof.
  revert st. induction es as [|e es IH]; intros st H; simpl.
  - exact H.
  - apply IH. apply step_condition. exact H.
Qed.

(** C4, as stated, fails: the condition select offers [Like New], which is
    not in the domain the specification lists; a form with that option
    chosen passes validation and its record is stored with it. *)
Lemma like_new_is_stored :
  let item := MovieForm.transformToBluerayItem (MovieForm.formData likeNewForm) in
  MovieForm.validateForm (MovieForm.formData likeNewForm) = []
  /\ Page.submittedItems (snd (Page.submit likeNewForm Page.init)) = [item]
  /\ BlurayItem.condition item = str "Like New"
  /\ ~ In (BlurayItem.condition item) specConditionDomain.
Proof.
  vm_compute. repeat split; try reflexivity.
  intros H. repeat (destruct H as [H|H]; [discriminate|]). exact H.
Qed.

(** C4, amended: the condition of a form is always the value of one of the
    six options of its select (New, Like New, Very Good, Good, Acceptable,
    Used), whatever happens to the form after it is mounted; the record
    built from the form carries that value unchanged; validation does not
    look at the condition. The option [New other] of the specification is
    not among the six. *)
Theorem condition_is_a_select_option :
  forall (image : Image.t) (es : list MovieForm.event) (c : jsstring),
    let formData := MovieForm.formData (MovieForm.run (MovieForm.init image) es) in
    In (FormData.condition formData) (MovieForm.options MovieForm.SCondition)
    /\ BlurayItem.condition (MovieForm.transformToBluerayItem formData)
       = FormData.condition formData
    /\ MovieForm.validateForm (FormData.set_condition c formData)
       = MovieForm.validateForm formData
    /\ MovieForm.options MovieForm.SCondition
       = map str ["New"; "Like New"; "Very Good"; "Good"; "Acceptable"; "Used"]%string
    /\ ~ In (str "New other") (MovieForm.options MovieForm.SCondition).
Proof.
  intros image es c formData. repeat split.
  - apply run_condition. simpl. do 5 right. left. reflexivity.
  - intros H. vm_compute in H.
    repeat (destruct H as [H|H]; [discriminate|]). exact H.
Qed.

(** ** Overrides *)

Section Overrides.

Import DefaultsResolver.
Local Open Scope string_scope.

Variable coercionTable : list (string * Condition).

Lemma applyOverrides_unrecognized (v : string) :
  lookup v coercionTable = None ->
  forall (overrides : list (string * string)) (r : ListingRecord),
    In ("condition", v) overrides ->
    exists field value,
      applyOverrides coercionTable r overrides
      = Failed (UnrecognizedOverride field value).
Proof.
  intros Hv. induction overrides as [|[k w] rest IH]; intros r Hin.
  - contradiction.
  - simpl. destruct Hin as [Heq|Hin].
    + injection Heq as -> ->. simpl. rewrite Hv. eauto.
    + destruct (String.eqb k "condition").
      * destruct (lookup w coercionTable); eauto.
      * eauto.
Qed.

(** C5: with [like new] mapped to [New other] by the coercion table, the
    override [condition: like new] on a partial input without an explicit
    condition resolves to a record whose condition is [New other], whatever
    the configured default; and a condition phrase missing from the table
    does not resolve to the default or to anything else: alone it fails
    with [UnrecognizedOverride] for that field and phrase, and no override
    list that carries it resolves. *)
Theorem like_new_override_resolves_to_new_other :
  lookup "like new" coercionTable = Some NewOther ->
  forall (defaults : ListingRecord) (fieldsGiven : list (string * string)),
    let p := mkPartial None fieldsGiven in
    (exists r,
       resolve coercionTable defaults p [("condition", "like new")] = Resolved r
       /\ condition r = NewOther
       /\ conditionName (condition r) = "New other")
    /\ (forall v,
          lookup v coercionTable = None ->
          resolve coercionTable defaults p [("condition", v)]
          = Failed (UnrecognizedOverride "condition" v))
    /\ (forall v overrides,
          lookup v coercionTable = None ->
          In ("condition", v) overrides ->
          forall r, resolve coercionTable defaults p overrides <> Resolved r).
Proof.
  intros Htable defaults fieldsGiven p. repeat split.
  - unfold resolve. simpl. rewrite Htable.
    eexists. repeat split.
  - intros v Hv. unfold resolve. simpl. rewrite Hv. reflexivity.
  - intros v overrides Hv Hin r Hr.
    destruct (applyOverrides_unrecognized v Hv overrides
                (applyPartial defaults p) Hin) as (f & w & E).
    unfold resolve in Hr. rewrite E in Hr. discriminate.
Qed.

End Overrides.

Lemma like_new_override_resolves_to_new_other_witness :
  DefaultsResolver.lookup "like new" sampleTable = Some DefaultsResolver.NewOther
  /\ (exists r,
        DefaultsResolver.resolve sampleTable sampleDefaults
          (DefaultsResolver.mkPartial None [("title", "The Dark Knight")]%string)
          [("condition", "like new")]%string
        = DefaultsResolver.Resolved r
        /\ DefaultsResolver.condition r = DefaultsResolver.NewOther
        /\ DefaultsResolver.conditionName (DefaultsResolver.condition r)
           = "New other"%string).
Proof.
  split; [reflexivity|].
  exact (proj1 (@like_new_override_resolves_to_new_other sampleTable
                  eq_refl sampleDefaults [("title", "The Dark Knight")]%string)).
Defined.

(** ** Export *)

Example onePage_has_one_item :
  Page.submittedItems onePage
  = [MovieForm.transformToBluerayItem (MovieForm.formData uploadedForm)].
Proof. vm_compute. reflexivity. Qed.

Lemma downloadName_inj (n m : nat) :
  Page.downloadName n = Page.downloadName m -> n = m.
Proof.
  unfold Page.downloadName. intros H.
  apply app_inv_head in H. apply app_inv_tail in H.
  apply decimal_inj in H. apply Nat2N.inj. exact H.
Qed.

Lemma downloadCSV_outputs (server : Page.request -> outcome jsstring)
    (st : Page.state) :
  Page.submittedItems (fst (fst (Page.downloadCSV server st)))
    = Page.submittedItems st
  /\ snd (fst (Page.downloadCSV server st)) = sentRequest (Page.submittedItems st)
  /\ snd (Page.downloadCSV server st) = offeredFile server (Page.submittedItems st).
Proof.
  unfold Page.downloadCSV, Page.downloadCSVStart, offeredFile, sentRequest.
  destruct (Page.submittedItems st) as [|item items] eqn:E;
    cbn [List.length Nat.eqb fst snd Page.submittedItems
         Page.setDownloadError Page.setIsDownloading].
  - rewrite ?E. repeat split; reflexivity.
  - rewrite ?E. unfold Page.downloadCSVDone.
    destruct (server _) as [m|n|blob];
      cbn [fst snd Page.submittedItems Page.setDownloadError
           Page.setIsDownloading];
      rewrite ?E; repeat split; reflexivity.
Qed.

(** C6, as stated, fails: the file name carries no timestamp, and two
    exports of the same store, one after the other, offer files of the same
    name. *)
Lemma two_exports_share_a_name :
  let '(st1, _, file1) := Page.downloadCSV sampleServer onePage in
  let '(_, _, file2) := Page.downloadCSV sampleServer st1 in
  option_map Page.filename file1 = Some (str "ebay_bluray_listings_1_items.csv")
  /\ option_map Page.filename file2 = option_map Page.filename file1.
Proof. vm_compute. split; reflexivity. Qed.

(** C6, amended: the name of the exported file is
    [ebay_bluray_listings_<n>_items.csv] with [n] the number of stored
    records when the response arrives; it encodes the item count and nothing
    else, so two exports have the same name exactly when they export the
    same number of records. *)
Theorem download_name_encodes_the_count_only :
  forall (blob : jsstring) (st : Page.state) (n m : nat),
    snd (Page.downloadCSVDone (Ok blob) st)
      = Some (Page.mkDownload
                (Page.downloadName (List.length (Page.submittedItems st))) blob)
    /\ Page.downloadName n
       = str "ebay_bluray_listings_" ++ decimal (N.of_nat n) ++ str "_items.csv"
    /\ (Page.downloadName n = Page.downloadName m <-> n = m).
Proof.
  intros blob st n m. repeat split.
  - apply downloadName_inj.
  - intros ->. reflexivity.
Qed.

(** C7, as stated, fails: exporting the empty store sends no request and
    offers no file, header-only or other; the run ends in the error message
    of the page. *)
Lemma empty_export_offers_no_file :
  Page.downloadCSV sampleServer Page.init
  = ({| Page.uploadedImages := []; Page.currentIndex := 0;
        Page.submittedItems := []; Page.isDownloading := false;
        Page.downloadError := str "No items to export" |},
     None, None).
Proof. reflexivity. Qed.

(** C7, amended: exporting when the store is empty raises no exception; it
    sends no request and offers no file, and only sets the message
    [No items to export] in [downloadError], leaving the rest of the page
    state, the download flag included, as it was. *)
Theorem empty_export_only_sets_the_message :
  forall (server : Page.request -> outcome jsstring) (st : Page.state),
    Page.submittedItems st = [] ->
    Page.downloadCSV server st
    = (Page.setDownloadError (str "No items to export") st, None, None).
Proof.
  intros server st H.
  unfold Page.downloadCSV, Page.downloadCSVStart. rewrite H. reflexivity.
Qed.

Lemma empty_export_only_sets_the_message_witness :
  Page.submittedItems Page.init = [] /\
  Page.downloadCSV sampleServer Page.init
  = (Page.setDownloadError (str "No items to export") Page.init, None, None).
Proof.
  split; [reflexivity|].
  exact (empty_export_only_sets_the_message sampleServer Page.init eq_refl).
Defined.

Lemma step_keepsStore (st : Page.state) (e : Page.event) :
  keepsStore e = true ->
  Page.submittedItems (Page.step st e) = Page.submittedItems st.
Proof.
  destruct e as [images|form| | |index| |o]; simpl; try discriminate; intros _.
  - unfold Page.goToPrevious. destruct (0 <? Page.currentIndex st)%Z; reflexivity.
  - unfold Page.goToNext.
    destruct (Page.currentIndex st <? _)%Z; reflexivity.
  - reflexivity.
  - unfold Page.downloadCSVStart.
    destruct (List.length (Page.submittedItems st) =? 0)%nat; reflexivity.
  - destruct o; reflexivity.
Qed.

Lemma run_keepsStore (es : list Page.event) (st : Page.state) :
  forallb keepsStore es = true ->
  Page.submittedItems (Page.run st es) = Page.submittedItems st.
Proof.
  revert st. induction es as [|e es IH]; intros st H; simpl in *.
  - reflexivity.
  - apply andb_true_iff in H. destruct H as (He & Hes).
    rewrite IH by exact Hes. apply step_keepsStore. exact He.
Qed.

(** C8: an export leaves the stored sequence as it was, however the request
    ends; and when nothing is added or cleared between two exports (moving
    between images and other exports may happen), the second export sends
    the same records and, the backend answering a request by its content,
    offers the same file as the first. *)
Theorem export_is_non_destructive_and_idempotent :
  forall (server : Page.request -> outcome jsstring) (st : Page.state)
         (between : list Page.event),
    forallb keepsStore between = true ->
    let first := Page.downloadCSV server st in
    let st1 := fst (fst first) in
    let second := Page.downloadCSV server (Page.run st1 between) in
    let st2 := fst (fst second) in
    Page.submittedItems st1 = Page.submittedItems st
    /\ Page.submittedItems st2 = Page.submittedItems st
    /\ snd (fst second) = snd (fst first)
    /\ snd second = snd first
    /\ (forall o, Page.submittedItems (fst (Page.downloadCSVDone o st))
                  = Page.submittedItems st).
Proof.
  intros server st between Hb first st1 second st2.
  destruct (downloadCSV_outputs server st) as (H1 & H2 & H3).
  destruct (downloadCSV_outputs server (Page.run st1 between)) as (K1 & K2 & K3).
  fold first in H1, H2, H3. fold st1 in H1.
  fold second in K1, K2, K3. fold st2 in K1.
  rewrite (run_keepsStore between st1 Hb), H1 in K1, K2, K3.
  repeat split.
  - exact H1.
  - exact K1.
  - rewrite K2, H2. reflexivity.
  - rewrite K3, H3. reflexivity.
  - intros o. destruct o; reflexivity.
Qed.

Lemma export_is_non_destructive_and_idempotent_witness :
  forallb keepsStore [Page.Previous; Page.GoTo 0; Page.Next] = true /\
  Page.submittedItems (fst (fst (Page.downloadCSV sampleServer onePage)))
  = Page.submittedItems onePage /\
  snd (Page.downloadCSV sampleServer
         (Page.run (fst (fst (Page.downloadCSV sampleServer onePage)))
            [Page.Previous; Page.GoTo 0; Page.Next]))
  = snd (Page.downloadCSV sampleServer onePage).
Proof.
  split; [reflexivity|].
  pose proof (export_is_non_destructive_and_idempotent sampleServer onePage
                [Page.Previous; Page.GoTo 0%Z; Page.Next] eq_refl) as H.
  cbv zeta in H. destruct H as (H1 & _ & _ & H4 & _).
  split; [exact H1 | exact H4].
Defined.

(** ** The store *)

Lemma handleItemSubmit_items (item : BlurayItem.t) (st : Page.state) :
  Page.submittedItems (Page.handleItemSubmit item st)
  = Page.submittedItems st ++ [item].
Proof.
  unfold Page.handleItemSubmit. simpl.
  destruct (Page.currentIndex st <? _)%Z; reflexivity.
Qed.

Lemma submit_items (form : MovieForm.state) (st : Page.state) :
  Page.submittedItems (snd (Page.submit form st))
  = Page.submittedItems st ++ (if accepted form then [itemOf form] else []).
Proof.
  unfold Page.submit, accepted.
  destruct (MovieForm.validateForm (MovieForm.formData form)) as [|m ms] eqn:E.
  - rewrite (handleSubmit_accepts Page.handleItemSubmit form st E). simpl.
    apply handleItemSubmit_items.
  - rewrite handleSubmit_rejects by (rewrite E; discriminate). simpl.
    rewrite app_nil_r. reflexivity.
Qed.

Lemma run_submits (forms : list MovieForm.state) (st : Page.state) :
  Page.submittedItems (Page.run st (map Page.FormSubmit forms))
  = Page.submittedItems st ++ map itemOf (filter accepted forms).
Proof.
  revert st. induction forms as [|form forms IH]; intros st; simpl.
  - rewrite app_nil_r. reflexivity.
  - rewrite IH, submit_items.
    destruct (accepted form); simpl.
    + rewrite <- app_assoc. reflexivity.
    + rewrite app_nil_r. reflexivity.
Qed.

(** C9: submitting a form that passes validation appends the record built
    from it: the store read afterwards is the store before followed by that
    record, which is therefore its last element, and the form is marked
    submitted. Over a series of submissions the store holds the records of
    the accepted forms in the order of submission. *)
Theorem submitted_record_is_last :
  forall (form : MovieForm.state) (page : Page.state),
    MovieForm.validateForm (MovieForm.formData form) = [] ->
    let item := MovieForm.transformToBluerayItem (MovieForm.formData form) in
    let after := Page.submit form page in
    Page.submittedItems (snd after) = Page.submittedItems page ++ [item]
    /\ (forall d, last (Page.submittedItems (snd after)) d = item)
    /\ MovieForm.isSubmitted (fst after) = true
    /\ (forall forms,
          Page.submittedItems (Page.run page (map Page.FormSubmit forms))
          = Page.submittedItems page ++ map itemOf (filter accepted forms)).
Proof.
  intros form page Hvalid item after.
  assert (Hitems : Page.submittedItems (snd after)
                   = Page.submittedItems page ++ [item]).
  { subst after. rewrite submit_items. unfold accepted. rewrite Hvalid.
    reflexivity. }
  repeat split.
  - exact Hitems.
  - intros d. rewrite Hitems. apply last_last.
  - subst after. unfold Page.submit.
    rewrite (handleSubmit_accepts Page.handleItemSubmit form page Hvalid).
    reflexivity.
  - intros forms. apply run_submits.
Qed.

Lemma submitted_record_is_last_witness :
  MovieForm.validateForm (MovieForm.formData uploadedForm) = [] /\
  Page.submittedItems (snd (Page.submit uploadedForm onePage))
  = Page.submittedItems onePage ++ [itemOf uploadedForm].
Proof.
  split; [vm_compute; reflexivity|].
  pose proof (submitted_record_is_last uploadedForm onePage) as H.
  cbv zeta in H. apply H. vm_compute. reflexivity.
Defined.

(** ** The photos of a stored record *)

Lemma accepted_onePhoto (form : MovieForm.state) :
  accepted form = true -> onePhoto (itemOf form).
Proof.
  unfold accepted. intros H.
  destruct (MovieForm.validateForm (MovieForm.formData form)) eqn:E;
    [|discriminate].
  apply validateForm_accepts_only in E. destruct E as (_ & Hp & _).
  exists (FormData.s3Url (MovieForm.formData form)).
  repeat split; simpl; auto; lia.
Qed.

Lemma step_onePhoto (st : Page.state) (e : Page.event) :
  Forall onePhoto (Page.submittedItems st) ->
  Forall onePhoto (Page.submittedItems (Page.step st e)).
Proof.
  intros H.
  destruct (keepsStore e) eqn:K.
  - rewrite step_keepsStore by exact K. exact H.
  - destruct e as [images|form| | |index| |o]; try discriminate; simpl.
    + constructor.
    + rewrite submit_items. apply Forall_app. split; [exact H|].
      destruct (accepted form) eqn:A; constructor.
      * apply accepted_onePhoto. exact A.
      * constructor.
Qed.

(** C10: the photos of the record built from a form are the one-element
    list holding its image reference; and whatever happens on the page,
    every record in the store has exactly one photo reference, a present
    (truthy) one, so that the number of its photos lies between one and
    twelve. *)
Theorem stored_records_have_one_photo :
  forall (formData : FormData.t) (es : list Page.event),
    BlurayItem.photos (MovieForm.transformToBluerayItem formData)
      = [FormData.s3Url formData]
    /\ Forall onePhoto (Page.submittedItems (Page.run Page.init es)).
Proof.
  intros formData es. split; [reflexivity|].
  assert (G : forall st, Forall onePhoto (Page.submittedItems st) ->
                         Forall onePhoto (Page.submittedItems (Page.run st es))).
  { induction es as [|e es IH]; intros st H; simpl.
    - exact H.
    - apply IH. apply step_onePhoto. exact H. }
  apply G. constructor.
Qed.
